(** * A shallow embedding of [wcl.py]: the WarcraftLogs API client

    The module [src/wcl.py] defines one class, [WCL], with two class
    attributes ([request_uri], [api_key]), two private helpers
    ([__make_request], [__format_params]) and ten public methods, one per
    remote endpoint.  Every public method builds a URI with an f-string and
    hands it to [__make_request], which performs [requests.get(uri)] and
    returns [response.json()].

    Python strings are modelled as [string]; the only slice the code takes
    ([paramstring[1:]]) removes a leading ['&'], a one-byte character, so the
    byte-wise model agrees with Python's code-point semantics there.  A
    [dict] is modelled as an association list in insertion order, the order
    [dict.items()] iterates in. *)

From Stdlib Require Import String Ascii List ZArith DecimalString Bool Lia.
Import ListNotations.
Open Scope string_scope.

Set Implicit Arguments.

(** ** Python values that reach the client *)

(** The values a caller passes as identifiers or as parameter values: the
    docstrings name [str] identifiers, and the smoke-test block passes
    [int]s ([611], ['class': 11]). *)
Inductive pyvalue : Type :=
| PyStr (s : string)
| PyInt (n : Z)
| PyBool (b : bool).

(** [str(value)] *)
Definition str (value : pyvalue) : string :=
  match value with
  | PyStr s => s
  | PyInt n => NilZero.string_of_int (Z.to_int n)
  | PyBool true => "True"
  | PyBool false => "False"
  end.

(** A replacement field [{x}] of an f-string, without conversion or format
    specification, is [format(x, '')], which is [str(x)] for [str], [int]
    and [bool]. *)
Definition format_field (x : pyvalue) : string := str x.

(** [params]: a [dict] from parameter names to values.  Keys are [str]:
    [__format_params] evaluates ['&' + key], which raises on any other
    type. *)
Definition dict : Type := list (string * pyvalue).

(** The default [params={}] of every method that takes a mapping.  The
    default object is shared between calls, but no method writes to it. *)
Definition default_params : dict := [].

(** [s[1:]] *)
Definition slice_from_1 (s : string) : string :=
  match s with
  | EmptyString => EmptyString
  | String _ rest => rest
  end.

(** [sub in s] *)
Fixpoint contains (s sub : string) : bool :=
  if String.prefix sub s then true
  else match s with
       | EmptyString => false
       | String _ rest => contains rest sub
       end.

(** [s.endswith(suffix)] *)
Fixpoint endswith (s suffix : string) : bool :=
  if String.eqb s suffix then true
  else match s with
       | EmptyString => false
       | String _ rest => endswith rest suffix
       end.

(** [s.count(c)] for a one-character [c] *)
Fixpoint count_char (c : ascii) (s : string) : nat :=
  match s with
  | EmptyString => 0
  | String c' rest => (if Ascii.eqb c' c then 1 else 0) + count_char c rest
  end.

(** ** The class [WCL] *)

(** The two class attributes every method reads through [self]. *)
Record WCL : Type := {
  request_uri : string;
  api_key : string
}.

(** The class as [wcl.py] defines it: [request_uri] is a literal and
    [api_key] is [config('API_KEY')], supplied by the configuration. *)
Definition WCL_class (configured_key : string) : WCL :=
  {| request_uri := "https://classic.warcraftlogs.com:443/v1";
     api_key := configured_key |}.

(** [WCL.__format_params]:
<<
    paramstring = ''
    for key, value in params.items():
        paramstring = paramstring + '&' + key + '=' + str(value)
    return paramstring[1:]
>> *)
Definition format_params_step (paramstring : string) (item : string * pyvalue) : string :=
  let '(key, value) := item in
  (((paramstring ++ "&") ++ key) ++ "=") ++ str value.

Definition format_params (params : dict) : string :=
  let paramstring := fold_left format_params_step params "" in
  slice_from_1 paramstring.

(** *** The URI each method builds (the f-string bound to [uri]) *)

Definition get_zone_list_uri (self : WCL) : string :=
  request_uri self ++ "/zones&api_key=" ++ api_key self.

Definition get_class_list_uri (self : WCL) : string :=
  request_uri self ++ "/classes&api_key=" ++ api_key self.

Definition get_rankings_list_encounter_uri (self : WCL)
    (encounterID : pyvalue) (params : dict) : string :=
  request_uri self ++ "/rankings/encounter/" ++ format_field encounterID
    ++ "?" ++ format_params params ++ "&api_key=" ++ api_key self.

Definition get_rankings_list_character_uri (self : WCL)
    (characterName serverName serverRegion : pyvalue) (params : dict) : string :=
  request_uri self ++ "/rankings/character/" ++ format_field characterName
    ++ "/" ++ format_field serverName ++ "/" ++ format_field serverRegion
    ++ "?" ++ format_params params ++ "&api_key=" ++ api_key self.

Definition get_parses_list_character_uri (self : WCL)
    (characterName serverName serverRegion : pyvalue) (params : dict) : string :=
  request_uri self ++ "/parses/character/" ++ format_field characterName
    ++ "/" ++ format_field serverName ++ "/" ++ format_field serverRegion
    ++ "?" ++ format_params params ++ "&api_key=" ++ api_key self.

Definition get_reports_list_guild_uri (self : WCL)
    (guildName serverName serverRegion : pyvalue) (params : dict) : string :=
  request_uri self ++ "/reports/guild/" ++ format_field guildName
    ++ "/" ++ format_field serverName ++ "/" ++ format_field serverRegion
    ++ "?" ++ format_params params ++ "&api_key=" ++ api_key self.

Definition get_reports_list_user_uri (self : WCL)
    (userName : pyvalue) (params : dict) : string :=
  request_uri self ++ "/reports/user/" ++ format_field userName
    ++ "?" ++ format_params params ++ "&api_key=" ++ api_key self.

Definition get_report_list_encounter_uri (self : WCL)
    (code : pyvalue) (params : dict) : string :=
  request_uri self ++ "/report/fights/" ++ format_field code
    ++ "?" ++ format_params params ++ "&api_key=" ++ api_key self.

Definition get_report_list_events_uri (self : WCL)
    (view code : pyvalue) (params : dict) : string :=
  request_uri self ++ "/report/events/" ++ format_field view
    ++ "/" ++ format_field code
    ++ "?" ++ format_params params ++ "&api_key=" ++ api_key self.

Definition get_report_list_tables_uri (self : WCL)
    (view code : pyvalue) (params : dict) : string :=
  request_uri self ++ "/report/tables/" ++ format_field view
    ++ "/" ++ format_field code
    ++ "?" ++ format_params params ++ "&api_key=" ++ api_key self.

(** ** The HTTP library and the effects of a call *)

(** What [wcl.py] imports and does not define: [requests.get(uri)] either
    raises or returns a response, and [response.json()] either raises or
    returns the decoded value.  Exceptions are the library's objects; the
    client declares no exception class of its own and has no [try]. *)
Class Requests : Type := {
  exn : Type;
  response : Type;
  json : Type;
  requests_get : string -> exn + response;
  response_json : response -> exn + json
}.

(** The state a call can observe or change: the attributes read through
    [self], and the GET requests issued so far (oldest first). *)
Record world : Type := {
  wcl : WCL;
  sent : list string
}.

Section Effects.
Context {R : Requests}.

(** A computation either raises a library exception or returns, and
    threads the world. *)
Definition M (A : Type) : Type := world -> world * (exn + A).

Definition ret {A : Type} (a : A) : M A := fun w => (w, inr a).

Definition bind {A B : Type} (m : M A) (k : A -> M B) : M B :=
  fun w =>
    match m w with
    | (w', inl e) => (w', inl e)
    | (w', inr a) => k a w'
    end.

(** Reading [self.request_uri] and [self.api_key]. *)
Definition read_self : M WCL := fun w => (w, inr (wcl w)).

(** [requests.get(uri)]: the request goes out, then the library raises
    or returns. *)
Definition http_get (uri : string) : M response :=
  fun w => ({| wcl := wcl w; sent := sent w ++ [uri] |}, requests_get uri).

(** [response.json()] *)
Definition decode (resp : response) : M json :=
  fun w => (w, response_json resp).
End Effects.

Notation "x <- m ;; k" := (bind m (fun x => k))
  (at level 61, m at next level, right associativity).

Section Methods.
Context {R : Requests}.

(** [WCL.__make_request]:
<<
    response = requests.get(uri)
    return response.json()
>> *)
Definition make_request (uri : string) : M json :=
  resp <- http_get uri ;;
  decode resp.

Definition get_zone_list : M json :=
  self <- read_self ;;
  make_request (get_zone_list_uri self).

Definition get_class_list : M json :=
  self <- read_self ;;
  make_request (get_class_list_uri self).

Definition get_rankings_list_encounter (encounterID : pyvalue) (params : dict) : M json :=
  self <- read_self ;;
  make_request (get_rankings_list_encounter_uri self encounterID params).

Definition get_rankings_list_character
    (characterName serverName serverRegion : pyvalue) (params : dict) : M json :=
  self <- read_self ;;
  make_request (get_rankings_list_character_uri self characterName serverName serverRegion params).

Definition get_parses_list_character
    (characterName serverName serverRegion : pyvalue) (params : dict) : M json :=
  self <- read_self ;;
  make_request (get_parses_list_character_uri self characterName serverName serverRegion params).

Definition get_reports_list_guild
    (guildName serverName serverRegion : pyvalue) (params : dict) : M json :=
  self <- read_self ;;
  make_request (get_reports_list_guild_uri self guildName serverName serverRegion params).

Definition get_reports_list_user (userName : pyvalue) (params : dict) : M json :=
  self <- read_self ;;
  make_request (get_reports_list_user_uri self userName params).

Definition get_report_list_encounter (code : pyvalue) (params : dict) : M json :=
  self <- read_self ;;
  make_request (get_report_list_encounter_uri self code params).

Definition get_report_list_events (view code : pyvalue) (params : dict) : M json :=
  self <- read_self ;;
  make_request (get_report_list_events_uri self view code params).

Definition get_report_list_tables (view code : pyvalue) (params : dict) : M json :=
  self <- read_self ;;
  make_request (get_report_list_tables_uri self view code params).
End Methods.

(** ** The ten public methods as one type *)

(** A call of a public method with its arguments, so that a statement can
    range over "every operation". *)
Inductive operation : Type :=
| ZoneList
| ClassList
| RankingsEncounter (encounterID : pyvalue) (params : dict)
| RankingsCharacter (characterName serverName serverRegion : pyvalue) (params : dict)
| ParsesCharacter (characterName serverName serverRegion : pyvalue) (params : dict)
| ReportsGuild (guildName serverName serverRegion : pyvalue) (params : dict)
| ReportsUser (userName : pyvalue) (params : dict)
| ReportFights (code : pyvalue) (params : dict)
| ReportEvents (view code : pyvalue) (params : dict)
| ReportTables (view code : pyvalue) (params : dict).

Definition call {R : Requests} (op : operation) : M json :=
  match op with
  | ZoneList => get_zone_list
  | ClassList => get_class_list
  | RankingsEncounter i p => get_rankings_list_encounter i p
  | RankingsCharacter c s r p => get_rankings_list_character c s r p
  | ParsesCharacter c s r p => get_parses_list_character c s r p
  | ReportsGuild g s r p => get_reports_list_guild g s r p
  | ReportsUser u p => get_reports_list_user u p
  | ReportFights c p => get_report_list_encounter c p
  | ReportEvents v c p => get_report_list_events v c p
  | ReportTables v c p => get_report_list_tables v c p
  end.

(** What the library makes of a URI: [requests.get(uri)] followed by
    [response.json()] gives the first exception raised, or the decoded
    value. *)
Definition outcome_of {R : Requests} (uri : string) : exn + json :=
  match requests_get uri with
  | inl e => inl e
  | inr resp => response_json resp
  end.

(** A caller making the calls of [ops] one after another on the same
    object, whatever each call returns or raises. *)
Definition call_all {R : Requests} (ops : list operation) (w : world) : world :=
  fold_left (fun w op => fst (call op w)) ops w.

(** The URI the method called by [op] binds to [uri]. *)
Definition uri_of (self : WCL) (op : operation) : string :=
  match op with
  | ZoneList => get_zone_list_uri self
  | ClassList => get_class_list_uri self
  | RankingsEncounter i p => get_rankings_list_encounter_uri self i p
  | RankingsCharacter c s r p => get_rankings_list_character_uri self c s r p
  | ParsesCharacter c s r p => get_parses_list_character_uri self c s r p
  | ReportsGuild g s r p => get_reports_list_guild_uri self g s r p
  | ReportsUser u p => get_reports_list_user_uri self u p
  | ReportFights c p => get_report_list_encounter_uri self c p
  | ReportEvents v c p => get_report_list_events_uri self v c p
  | ReportTables v c p => get_report_list_tables_uri self v c p
  end.

(** The required identifiers of a call, in the order of the signature. *)
Definition identifiers (op : operation) : list pyvalue :=
  match op with
  | ZoneList | ClassList => []
  | RankingsEncounter i _ => [i]
  | RankingsCharacter c s r _ | ParsesCharacter c s r _ | ReportsGuild c s r _ => [c; s; r]
  | ReportsUser u _ => [u]
  | ReportFights c _ => [c]
  | ReportEvents v c _ | ReportTables v c _ => [v; c]
  end.

(** The parameter mapping of a call; [None] for the two methods whose
    signature has none. *)
Definition params_of (op : operation) : option dict :=
  match op with
  | ZoneList | ClassList => None
  | RankingsEncounter _ p | RankingsCharacter _ _ _ p | ParsesCharacter _ _ _ p
  | ReportsGuild _ _ _ p | ReportsUser _ p | ReportFights _ p
  | ReportEvents _ _ p | ReportTables _ _ p => Some p
  end.

(** The literal path of the f-string with the identifiers substituted: the
    text between [{self.request_uri}] and the ['?'] (or, for the two
    methods without a mapping, the ['&api_key=']). *)
Definition path_of (op : operation) : string :=
  match op with
  | ZoneList => "/zones"
  | ClassList => "/classes"
  | RankingsEncounter i _ => "/rankings/encounter/" ++ format_field i
  | RankingsCharacter c s r _ =>
      "/rankings/character/" ++ format_field c ++ "/" ++ format_field s ++ "/" ++ format_field r
  | ParsesCharacter c s r _ =>
      "/parses/character/" ++ format_field c ++ "/" ++ format_field s ++ "/" ++ format_field r
  | ReportsGuild g s r _ =>
      "/reports/guild/" ++ format_field g ++ "/" ++ format_field s ++ "/" ++ format_field r
  | ReportsUser u _ => "/reports/user/" ++ format_field u
  | ReportFights c _ => "/report/fights/" ++ format_field c
  | ReportEvents v c _ => "/report/events/" ++ format_field v ++ "/" ++ format_field c
  | ReportTables v c _ => "/report/tables/" ++ format_field v ++ "/" ++ format_field c
  end.

(** Some required identifier of the call renders as the empty string. *)
Definition has_empty_identifier (op : operation) : bool :=
  existsb (fun x => String.eqb (format_field x) "") (identifiers op).

(** ** Reference definitions, from the specification's wording *)

(** The specification asks for percent-encoding; [wcl.py] contains none, so
    these definitions follow the specification (RFC 3986: every byte but
    the unreserved ones becomes ['%'] and two upper-case hex digits) and
    serve only to compare the code against. *)
Definition unreserved (c : ascii) : bool :=
  let n := nat_of_ascii c in
  (((65 <=? n) && (n <=? 90)) || ((97 <=? n) && (n <=? 122))
   || ((48 <=? n) && (n <=? 57))
   || (n =? 45) || (n =? 46) || (n =? 95) || (n =? 126))%nat.

Definition hex_digit (n : nat) : ascii :=
  match n with
  | 0 => "0" | 1 => "1" | 2 => "2" | 3 => "3" | 4 => "4"
  | 5 => "5" | 6 => "6" | 7 => "7" | 8 => "8" | 9 => "9"
  | 10 => "A" | 11 => "B" | 12 => "C" | 13 => "D" | 14 => "E"
  | _ => "F"
  end%char.

Definition hex_value (c : ascii) : option nat :=
  let n := nat_of_ascii c in
  if ((48 <=? n) && (n <=? 57))%nat then Some (n - 48)
  else if ((65 <=? n) && (n <=? 70))%nat then Some (n - 55)
  else if ((97 <=? n) && (n <=? 102))%nat then Some (n - 87)
  else None.

Definition percent_encode_char (c : ascii) : string :=
  if unreserved c then String c EmptyString
  else String "%" (String (hex_digit (nat_of_ascii c / 16))
                     (String (hex_digit (nat_of_ascii c mod 16)) EmptyString)).

Fixpoint percent_encode (s : string) : string :=
  match s with
  | EmptyString => EmptyString
  | String c rest => percent_encode_char c ++ percent_encode rest
  end.

(** Percent-decoding: a ['%'] followed by two hex digits is one byte;
    anything else stands for itself. *)
Fixpoint percent_decode (s : string) : string :=
  match s with
  | EmptyString => EmptyString
  | String c rest =>
      if Ascii.eqb c "%" then
        match rest with
        | String h (String l rest') =>
            match hex_value h, hex_value l with
            | Some a, Some b => String (ascii_of_nat (16 * a + b)) (percent_decode rest')
            | _, _ => String c (percent_decode rest)
            end
        | _ => String c (percent_decode rest)
        end
      else String c (percent_decode rest)
  end.

(** One [key=value] pair as [__format_params] writes it. *)
Definition key_value_pair (item : string * pyvalue) : string :=
  fst item ++ "=" ++ str (snd item).

(** The query string as the specification words it: one [key=value] pair
    per entry, the value percent-encoded, the pairs joined by ['&']. *)
Definition spec_query_string (params : dict) : string :=
  String.concat "&"
    (map (fun item => fst item ++ "=" ++ percent_encode (str (snd item))) params).

(** ** Stub transports *)

(** A stubbed [requests]: [url] answers with [body], every other URI makes
    [requests.get] raise [transport_exn]; [json()] returns the body when
    [valid_json] and raises [decode_exn] otherwise.  Exceptions, bodies
    and decoded values are all strings here. *)
Definition stub_requests (url body transport_exn decode_exn : string)
    (valid_json : bool) : Requests :=
  {| exn := string;
     response := string;
     json := string;
     requests_get := fun uri =>
       if String.eqb uri url then inr body else inl transport_exn;
     response_json := fun resp =>
       if valid_json then inr resp else inl decode_exn |}.

(** The client of the specification's scenarios. *)
Definition host_client : WCL :=
  {| request_uri := "https://host/v1"; api_key := "KEY123" |}.

Definition fresh_world (self : WCL) : world := {| wcl := self; sent := [] |}.

(** ** Reading a query string back, and the script *)

(** [c not in s] for a one-character [c] *)
Definition no_char (c : ascii) (s : string) : bool :=
  Nat.eqb (count_char c s) 0.

(** [s.split(sep)] for a one-character [sep]: the pieces between the
    separators, the empty string giving one empty piece. *)
Fixpoint split_on (sep : ascii) (s : string) : list string :=
  match s with
  | EmptyString => [EmptyString]
  | String c rest =>
      if Ascii.eqb c sep then EmptyString :: split_on sep rest
      else match split_on sep rest with
           | [] => [String c EmptyString]
           | piece :: pieces => String c piece :: pieces
           end
  end.

(** An entry whose key holds neither ['&'] nor ['='] and whose value
    renders without ['&']. *)
Definition separable (item : string * pyvalue) : bool :=
  no_char "&" (fst item) && no_char "=" (fst item) && no_char "&" (str (snd item)).

(** What [__format_params] keeps of an entry: the key and the text of
    the value. *)
Definition rendered (item : string * pyvalue) : string * string :=
  (fst item, str (snd item)).

(** The [__main__] block:
<<
    wcl = WCL()
    test = wcl.get_reports_list_guild('not like this', 'herod', 'US')
    print(test)
>>
    run with [config('API_KEY')] being [configured_key].  The result holds
    the world after the run and either the exception that ended it or the
    values printed. *)
Definition main {R : Requests} (configured_key : string) : world * (exn + list json) :=
  let w := fresh_world (WCL_class configured_key) in
  match get_reports_list_guild (PyStr "not like this") (PyStr "herod") (PyStr "US")
          default_params w with
  | (w', inl e) => (w', inl e)
  | (w', inr test) => (w', inr [test])
  end.

(** * Properties *)

(** ** Strings *)

Lemma append_nil_r (s : string) : s ++ "" = s.
Proof. induction s as [|c s IH]; simpl; [reflexivity | now rewrite IH]. Qed.

Lemma append_assoc (s1 s2 s3 : string) : (s1 ++ s2) ++ s3 = s1 ++ (s2 ++ s3).
Proof. induction s1 as [|c s1 IH]; simpl; [reflexivity | now rewrite IH]. Qed.

Lemma append_inv_head (s t1 t2 : string) : s ++ t1 = s ++ t2 -> t1 = t2.
Proof.
  induction s as [|c s IH]; simpl; intros H; [exact H|].
  injection H as H. now apply IH.
Qed.

(** Right-nest every concatenation and push literal prefixes inwards. *)
Ltac normalize_append :=
  repeat (first [rewrite !append_assoc | progress (cbn [append])]).

Lemma prefix_append (sub post : string) : String.prefix sub (sub ++ post) = true.
Proof.
  induction sub as [|c sub IH]; simpl.
  - now destruct post.
  - destruct (ascii_dec c c) as [_|Hne]; [exact IH | now elim Hne].
Qed.

Lemma contains_unfold (s sub : string) :
  contains s sub
  = if String.prefix sub s then true
    else match s with
         | EmptyString => false
         | String _ rest => contains rest sub
         end.
Proof. now destruct s. Qed.

Lemma endswith_unfold (s suffix : string) :
  endswith s suffix
  = if String.eqb s suffix then true
    else match s with
         | EmptyString => false
         | String _ rest => endswith rest suffix
         end.
Proof. now destruct s. Qed.

Lemma contains_infix (pre sub post : string) :
  contains (pre ++ sub ++ post) sub = true.
Proof.
  induction pre as [|c pre IH]; rewrite contains_unfold.
  - simpl. now rewrite prefix_append.
  - change (String c pre ++ sub ++ post) with (String c (pre ++ sub ++ post)).
    cbv iota. rewrite IH.
    now destruct (String.prefix sub (String c (pre ++ sub ++ post))).
Qed.

Lemma endswith_append (pre suffix : string) : endswith (pre ++ suffix) suffix = true.
Proof.
  induction pre as [|c pre IH]; rewrite endswith_unfold.
  - simpl. now rewrite String.eqb_refl.
  - change (String c pre ++ suffix) with (String c (pre ++ suffix)).
    cbv iota. rewrite IH.
    now destruct (String.eqb (String c (pre ++ suffix)) suffix).
Qed.

Lemma endswith_skip (pre s suffix : string) :
  endswith s suffix = true -> endswith (pre ++ s) suffix = true.
Proof.
  intros H. induction pre as [|c pre IH]; [exact H|].
  rewrite endswith_unfold.
  change (String c pre ++ s) with (String c (pre ++ s)). cbv iota.
  rewrite IH. now destruct (String.eqb (String c (pre ++ s)) suffix).
Qed.

(** ** [__format_params] *)

(** The loop of [__format_params], started from any accumulator, appends
    ['&' + key + '=' + str(value)] for each entry in turn. *)
Lemma format_params_loop (params : dict) (acc : string) :
  fold_left format_params_step params acc
  = acc ++ fold_right (fun item rest => "&" ++ key_value_pair item ++ rest) "" params.
Proof.
  revert acc. induction params as [|[key value] params IH]; intros acc; simpl.
  - now rewrite append_nil_r.
  - rewrite IH. unfold key_value_pair. simpl. now rewrite !append_assoc.
Qed.

Lemma concat_amp_join (items : list (string * pyvalue)) :
  fold_right (fun item rest => "&" ++ key_value_pair item ++ rest) "" items
  = match items with
    | [] => ""
    | _ :: _ => "&" ++ String.concat "&" (map key_value_pair items)
    end.
Proof.
  induction items as [|item items IH]; [reflexivity|].
  cbn [fold_right]. rewrite IH.
  destruct items as [|item' items]; simpl; [now rewrite append_nil_r | reflexivity].
Qed.

Lemma format_params_join (params : dict) :
  format_params params = String.concat "&" (map key_value_pair params).
Proof.
  unfold format_params. simpl. rewrite format_params_loop, concat_amp_join.
  now destruct params.
Qed.

Lemma count_char_append (c : ascii) (s1 s2 : string) :
  count_char c (s1 ++ s2) = count_char c s1 + count_char c s2.
Proof.
  induction s1 as [|c' s1 IH]; [reflexivity|].
  simpl. rewrite IH. lia.
Qed.

(** When no key and no rendered value holds a ['&'], the query string of
    [n] entries has [n - 1] of them: the separators, and nothing else. *)
Lemma format_params_ampersands (params : dict) :
  Forall (fun item => count_char "&" (key_value_pair item) = 0) params ->
  count_char "&" (format_params params) = pred (length params).
Proof.
  rewrite format_params_join.
  induction params as [|item params IH]; intros H; [reflexivity|].
  inversion H as [|? ? Hitem Hrest]; subst.
  destruct params as [|item' params]; [exact Hitem|].
  change (String.concat "&" (map key_value_pair (item :: item' :: params)))
    with (key_value_pair item ++ "&"
            ++ String.concat "&" (map key_value_pair (item' :: params))).
  rewrite !count_char_append, Hitem, (IH Hrest). reflexivity.
Qed.

Lemma format_params_empty : format_params [] = "".
Proof. reflexivity. Qed.

(** ** The shape of the URIs *)

(** The eight methods that take a mapping build
    base + path + ['?'] + query + ['&api_key='] + key. *)
Lemma uri_of_with_params (self : WCL) (op : operation) (params : dict) :
  params_of op = Some params ->
  uri_of self op
  = request_uri self ++ path_of op ++ "?" ++ format_params params
      ++ "&api_key=" ++ api_key self.
Proof.
  destruct op; simpl; intros H; try discriminate; injection H as <-;
    unfold get_rankings_list_encounter_uri, get_rankings_list_character_uri,
      get_parses_list_character_uri, get_reports_list_guild_uri,
      get_reports_list_user_uri, get_report_list_encounter_uri,
      get_report_list_events_uri, get_report_list_tables_uri;
    cbn [path_of]; normalize_append; reflexivity.
Qed.

(** Every method ends its URI with ['&api_key='] and the key. *)
Lemma uri_of_ends_with_key (self : WCL) (op : operation) :
  endswith (uri_of self op) ("&api_key=" ++ api_key self) = true.
Proof.
  destruct (params_of op) as [params|] eqn:E.
  - rewrite (uri_of_with_params self op E).
    do 4 apply endswith_skip. apply (endswith_append "").
  - destruct op; try discriminate; simpl;
      unfold get_zone_list_uri, get_class_list_uri; apply endswith_skip.
    + apply (endswith_append "/zones").
    + apply (endswith_append "/classes").
Qed.

(** ** Percent-encoding, as the specification means it *)

Lemma percent_decode_encode_char (c : ascii) (rest : string) :
  percent_decode (percent_encode_char c ++ rest) = String c (percent_decode rest).
Proof. destruct c as [[] [] [] [] [] [] [] []]; reflexivity. Qed.

(** The reference encoder and decoder do form a round trip, so the
    specification's requirement is one an encoder can meet. *)
Lemma percent_decode_encode (s : string) : percent_decode (percent_encode s) = s.
Proof.
  induction s as [|c s IH]; [reflexivity|].
  simpl percent_encode. now rewrite percent_decode_encode_char, IH.
Qed.

(** ** What a call does *)

Section Calls.
Context {R : Requests}.

Lemma make_request_spec (uri : string) (w : world) :
  make_request uri w = ({| wcl := wcl w; sent := sent w ++ [uri] |}, outcome_of uri).
Proof.
  unfold make_request, bind, http_get, decode, outcome_of.
  now destruct (requests_get uri).
Qed.

(** Every public method reads [self], issues exactly one GET on the URI
    it built, and hands back what the library produced. *)
Lemma call_spec (op : operation) (w : world) :
  call op w
  = ({| wcl := wcl w; sent := sent w ++ [uri_of (wcl w) op] |},
     outcome_of (uri_of (wcl w) op)).
Proof.
  destruct op; cbn [call uri_of];
    unfold get_zone_list, get_class_list, get_rankings_list_encounter,
      get_rankings_list_character, get_parses_list_character,
      get_reports_list_guild, get_reports_list_user,
      get_report_list_encounter, get_report_list_events,
      get_report_list_tables;
    unfold bind at 1, read_self; apply make_request_spec.
Qed.
End Calls.

(** * The claims *)

(** ** C1: the query string *)

(** C1, as the code has it: the query string is exactly the mapping's
    entries in insertion order, one [key=str(value)] pair per entry with
    the value inserted as [str] renders it, joined by single ['&'], with
    nothing before the first pair or after the last. *)
Theorem format_params_one_pair_per_entry (params : dict) :
  format_params params = String.concat "&" (map key_value_pair params)
  /\ length (map key_value_pair params) = length params.
Proof. split; [apply format_params_join | apply length_map]. Qed.

(** C1 as stated fails: a value with a space is not percent-encoded. *)
Lemma format_params_does_not_encode_values :
  format_params [("filter", PyStr "a b")] = "filter=a b"
  /\ spec_query_string [("filter", PyStr "a b")] = "filter=a%20b"
  /\ format_params [("filter", PyStr "a b")]
     <> spec_query_string [("filter", PyStr "a b")].
Proof. repeat split. vm_compute. discriminate. Qed.

(** ** C2: identifiers in the path *)

(** C2 at the failing inputs: the guild name of the source's own smoke
    test reaches the URI with its spaces, where the encoded segment is
    [not%20like%20this]; and a name holding [%25] decodes to another
    string than the caller passed. *)
Theorem identifier_interpolated_without_encoding :
  get_reports_list_guild_uri host_client
    (PyStr "not like this") (PyStr "herod") (PyStr "US") default_params
  = "https://host/v1/reports/guild/not like this/herod/US?&api_key=KEY123"
  /\ format_field (PyStr "not like this") <> percent_encode "not like this"
  /\ get_rankings_list_character_uri host_client
       (PyStr "50%25") (PyStr "herod") (PyStr "US") default_params
     = "https://host/v1/rankings/character/50%25/herod/US?&api_key=KEY123"
  /\ percent_decode (format_field (PyStr "50%25")) = "50%"
  /\ percent_decode (format_field (PyStr "50%25")) <> "50%25".
Proof. repeat split; vm_compute; discriminate. Qed.

(** ** C3: the shape of the URI *)

(** C3 at the failing inputs: the URIs of [get_zone_list] and
    [get_class_list] have no ['?'] between the path and ['&api_key='], so
    whatever the query string, they are not base + path + ['?'] + query +
    ['&api_key='] + key. *)
Theorem zone_and_class_uri_lack_question_mark (self : WCL) (query : string) :
  get_zone_list_uri self
    <> request_uri self ++ "/zones" ++ "?" ++ query ++ "&api_key=" ++ api_key self
  /\ get_class_list_uri self
    <> request_uri self ++ "/classes" ++ "?" ++ query ++ "&api_key=" ++ api_key self.
Proof.
  split; intros H; apply append_inv_head in H; simpl in H; discriminate.
Qed.

(** ** C5: rankings by encounter, the concrete scenario *)

(** C5: with base [https://host/v1] and key [KEY123], the call
    [get_rankings_list_encounter(611, {'metric': 'dps', 'class': 11})]
    builds the URI of the scenario, parameters in insertion order, issues
    one GET on it, and returns the decoded body of the stub. *)
Theorem rankings_encounter_scenario {R : Requests} (w : world)
    (resp : response) (v : json) :
  wcl w = host_client ->
  requests_get
    "https://host/v1/rankings/encounter/611?metric=dps&class=11&api_key=KEY123"
    = inr resp ->
  response_json resp = inr v ->
  get_rankings_list_encounter_uri (wcl w) (PyInt 611)
      [("metric", PyStr "dps"); ("class", PyInt 11)]
    = "https://host/v1/rankings/encounter/611?metric=dps&class=11&api_key=KEY123"
  /\ get_rankings_list_encounter (PyInt 611)
       [("metric", PyStr "dps"); ("class", PyInt 11)] w
     = ({| wcl := wcl w;
           sent := sent w ++
             ["https://host/v1/rankings/encounter/611?metric=dps&class=11&api_key=KEY123"] |},
        inr v).
Proof.
  intros Hself Hget Hjson.
  assert (Huri : get_rankings_list_encounter_uri (wcl w) (PyInt 611)
            [("metric", PyStr "dps"); ("class", PyInt 11)]
          = "https://host/v1/rankings/encounter/611?metric=dps&class=11&api_key=KEY123")
    by (rewrite Hself; reflexivity).
  split; [exact Huri|].
  pose proof (call_spec (RankingsEncounter (PyInt 611)
                [("metric", PyStr "dps"); ("class", PyInt 11)]) w) as Hcall.
  cbn [call uri_of] in Hcall. rewrite Hcall, Huri.
  unfold outcome_of. now rewrite Hget, Hjson.
Qed.

Lemma rankings_encounter_scenario_witness :
  get_rankings_list_encounter_uri host_client (PyInt 611)
      [("metric", PyStr "dps"); ("class", PyInt 11)]
    = "https://host/v1/rankings/encounter/611?metric=dps&class=11&api_key=KEY123"
  /\ get_rankings_list_encounter
    (R := stub_requests
            "https://host/v1/rankings/encounter/611?metric=dps&class=11&api_key=KEY123"
            "{'total': 0}" "ConnectionError" "ValueError" true)
    (PyInt 611) [("metric", PyStr "dps"); ("class", PyInt 11)]
    (fresh_world host_client)
  = ({| wcl := host_client;
        sent := ["https://host/v1/rankings/encounter/611?metric=dps&class=11&api_key=KEY123"] |},
     inr "{'total': 0}").
Proof.
  apply (@rankings_encounter_scenario
           (stub_requests
              "https://host/v1/rankings/encounter/611?metric=dps&class=11&api_key=KEY123"
              "{'total': 0}" "ConnectionError" "ValueError" true)
           (fresh_world host_client) "{'total': 0}" "{'total': 0}");
    reflexivity.
Defined.

(** ** C6: reports by guild, the concrete scenario *)

(** C6, as the code has it: for guild ["not like this"], server ["herod"],
    region ["US"] and the empty mapping, the URI is the base, the literal
    [/reports/guild/], the guild name as the f-string renders it, and
    [/herod/US?&api_key=KEY123]: the empty mapping formats to the empty
    string, so ['&'] follows ['?'] directly. *)
Theorem reports_guild_scenario :
  get_reports_list_guild_uri host_client
    (PyStr "not like this") (PyStr "herod") (PyStr "US") default_params
  = "https://host/v1/reports/guild/" ++ format_field (PyStr "not like this")
      ++ "/herod/US?&api_key=KEY123"
  /\ endswith
       (get_reports_list_guild_uri host_client
          (PyStr "not like this") (PyStr "herod") (PyStr "US") default_params)
       "/herod/US?&api_key=KEY123" = true.
Proof. split; reflexivity. Qed.

(** C6 as stated fails: the URI does not end in the text of the scenario. *)
Lemma reports_guild_scenario_uri_differs :
  endswith
    (get_reports_list_guild_uri host_client
       (PyStr "not like this") (PyStr "herod") (PyStr "US") default_params)
    "/reports/guild/not%20like%20this/herod/US?api_key=KEY123" = false
  /\ endswith
       (get_reports_list_guild_uri host_client
          (PyStr "not like this") (PyStr "herod") (PyStr "US") default_params)
       "?api_key=KEY123" = false.
Proof. split; reflexivity. Qed.

(** ** C10: the empty mapping *)

(** C10: the empty mapping (the default included) formats to the empty
    string, so the URI of every method that takes a mapping is
    base + path + [?&api_key=] + key and contains [?&api_key=]. *)
Theorem empty_params_uri_has_question_amp (self : WCL) (op : operation) :
  params_of op = Some default_params ->
  format_params default_params = ""
  /\ uri_of self op = request_uri self ++ path_of op ++ "?&api_key=" ++ api_key self
  /\ contains (uri_of self op) "?&api_key=" = true.
Proof.
  intros H. split; [reflexivity|].
  assert (E : uri_of self op
              = request_uri self ++ path_of op ++ "?&api_key=" ++ api_key self)
    by (rewrite (uri_of_with_params self op H); reflexivity).
  split; [exact E|].
  rewrite E, <- (append_assoc (request_uri self) (path_of op)).
  apply contains_infix.
Qed.

Lemma empty_params_uri_has_question_amp_witness :
  format_params default_params = ""
  /\ uri_of host_client (ReportsUser (PyStr "kampf") default_params)
     = request_uri host_client
         ++ path_of (ReportsUser (PyStr "kampf") default_params)
         ++ "?&api_key=" ++ api_key host_client
  /\ contains (uri_of host_client (ReportsUser (PyStr "kampf") default_params))
       "?&api_key=" = true.
Proof.
  apply (@empty_params_uri_has_question_amp host_client
           (ReportsUser (PyStr "kampf") default_params)).
  reflexivity.
Defined.

(** ** C7: the decoded body is passed through *)

(** C7: when the transport answers the constructed URI with a body that
    [json()] decodes to [v], the operation returns [v] itself. *)
Theorem valid_json_body_returned_unchanged {R : Requests} (op : operation)
    (w : world) (resp : response) (v : json) :
  requests_get (uri_of (wcl w) op) = inr resp ->
  response_json resp = inr v ->
  snd (call op w) = inr v.
Proof.
  intros Hget Hjson. rewrite call_spec. cbn [snd].
  unfold outcome_of. now rewrite Hget, Hjson.
Qed.

Lemma valid_json_body_returned_unchanged_witness :
  snd (call (R := stub_requests "https://host/v1/zones&api_key=KEY123"
                    "[{'id': 1000}]" "ConnectionError" "ValueError" true)
         ZoneList (fresh_world host_client))
  = inr "[{'id': 1000}]".
Proof.
  apply (@valid_json_body_returned_unchanged
           (stub_requests "https://host/v1/zones&api_key=KEY123"
              "[{'id': 1000}]" "ConnectionError" "ValueError" true)
           ZoneList (fresh_world host_client) "[{'id': 1000}]" "[{'id': 1000}]");
    reflexivity.
Defined.

(** ** C8: a body that is not JSON *)

(** C8, as the code has it: when the transport answers the constructed
    URI with a body on which [json()] raises [e], the operation has issued
    its one GET and raises that same [e], unwrapped; it returns no
    value. *)
Theorem non_json_body_raises_decoder_exception {R : Requests} (op : operation)
    (w : world) (resp : response) (e : exn) :
  requests_get (uri_of (wcl w) op) = inr resp ->
  response_json resp = inl e ->
  call op w = ({| wcl := wcl w; sent := sent w ++ [uri_of (wcl w) op] |}, inl e).
Proof.
  intros Hget Hjson. rewrite call_spec.
  unfold outcome_of. now rewrite Hget, Hjson.
Qed.

Lemma non_json_body_raises_decoder_exception_witness :
  call (R := stub_requests "https://host/v1/zones&api_key=KEY123"
               "<html>" "ConnectionError" "ValueError" false)
    ZoneList (fresh_world host_client)
  = ({| wcl := host_client; sent := ["https://host/v1/zones&api_key=KEY123"] |},
     inl "ValueError").
Proof.
  apply (@non_json_body_raises_decoder_exception
           (stub_requests "https://host/v1/zones&api_key=KEY123"
              "<html>" "ConnectionError" "ValueError" false)
           ZoneList (fresh_world host_client) "<html>" "ValueError");
    reflexivity.
Defined.

(** C8 as stated fails: under one stub, [get_zone_list] meets a body that
    is not JSON and [get_class_list] meets a transport failure, and the two
    calls end in the same exception; nothing in the outcome tells the
    decode failure from the transport failure. *)
Lemma decode_failure_same_as_transport_failure :
  let R := stub_requests "https://host/v1/zones&api_key=KEY123"
             "<html>" "ValueError" "ValueError" false in
  @requests_get R (uri_of host_client ZoneList) = inr "<html>"
  /\ @response_json R "<html>" = inl "ValueError"
  /\ @requests_get R (uri_of host_client ClassList) = inl "ValueError"
  /\ snd (call (R := R) ZoneList (fresh_world host_client))
     = snd (call (R := R) ClassList (fresh_world host_client)).
Proof. repeat split. Qed.

(** ** C9: the attributes of the client *)

Lemma call_all_keeps_self {R : Requests} (ops : list operation) (w : world) :
  wcl (call_all ops w) = wcl w.
Proof.
  revert w. induction ops as [|op ops IH]; intros w; [reflexivity|].
  unfold call_all in *. cbn [fold_left]. rewrite IH, call_spec. reflexivity.
Qed.

(** C9: no operation writes [request_uri] or [api_key]; after a call, and
    after any sequence of calls, both hold the values they held before. *)
Theorem client_attributes_unchanged {R : Requests} (op : operation)
    (ops : list operation) (w : world) :
  request_uri (wcl (fst (call op w))) = request_uri (wcl w)
  /\ api_key (wcl (fst (call op w))) = api_key (wcl w)
  /\ wcl (call_all ops w) = wcl w.
Proof.
  rewrite call_spec. cbn [fst wcl].
  repeat split. apply call_all_keeps_self.
Qed.

(** ** C4: empty identifiers *)

(** C4, as the code has it: a call with an empty required identifier is
    not rejected; it issues its one GET on the URI built with the empty
    segment, and it fails only if the library raises, with the library's
    exception. *)
Theorem empty_identifier_not_rejected {R : Requests} (op : operation) (w : world) :
  has_empty_identifier op = true ->
  call op w
  = ({| wcl := wcl w; sent := sent w ++ [uri_of (wcl w) op] |},
     outcome_of (uri_of (wcl w) op)).
Proof. intros _. apply call_spec. Qed.

Lemma empty_identifier_not_rejected_witness :
  call (R := stub_requests
               "https://host/v1/reports/user/?&api_key=KEY123"
               "[]" "ConnectionError" "ValueError" true)
    (ReportsUser (PyStr "") default_params) (fresh_world host_client)
  = ({| wcl := host_client;
        sent := ["https://host/v1/reports/user/?&api_key=KEY123"] |},
     inr "[]").
Proof.
  apply (@empty_identifier_not_rejected
           (stub_requests "https://host/v1/reports/user/?&api_key=KEY123"
              "[]" "ConnectionError" "ValueError" true)
           (ReportsUser (PyStr "") default_params) (fresh_world host_client)).
  reflexivity.
Defined.

(** C4 as stated fails: with an empty character name the request goes out
    and the call returns the decoded body. *)
Lemma empty_identifier_request_is_sent :
  let R := stub_requests
             "https://host/v1/rankings/character//herod/US?&api_key=KEY123"
             "[]" "ConnectionError" "ValueError" true in
  has_empty_identifier
    (RankingsCharacter (PyStr "") (PyStr "herod") (PyStr "US") default_params) = true
  /\ get_rankings_list_character (R := R)
       (PyStr "") (PyStr "herod") (PyStr "US") default_params
       (fresh_world host_client)
     = ({| wcl := host_client;
           sent := ["https://host/v1/rankings/character//herod/US?&api_key=KEY123"] |},
        inr "[]").
Proof. split; reflexivity. Qed.

(** * Further properties of the client *)

(** ** Failures of the transport *)

(** When [requests.get] raises on the constructed URI, the operation
    raises that same exception: the request is on record, [json()] is not
    consulted and no value is returned. *)
Theorem transport_failure_propagates {R : Requests} (op : operation)
    (w : world) (e : exn) :
  requests_get (uri_of (wcl w) op) = inl e ->
  call op w = ({| wcl := wcl w; sent := sent w ++ [uri_of (wcl w) op] |}, inl e).
Proof.
  intros Hget. rewrite call_spec. unfold outcome_of. now rewrite Hget.
Qed.

Lemma transport_failure_propagates_witness :
  call (R := stub_requests "https://host/v1/zones?api_key=KEY123"
               "[]" "ConnectionError" "ValueError" true)
    ZoneList (fresh_world host_client)
  = ({| wcl := host_client; sent := ["https://host/v1/zones&api_key=KEY123"] |},
     inl "ConnectionError").
Proof.
  apply (@transport_failure_propagates
           (stub_requests "https://host/v1/zones?api_key=KEY123"
              "[]" "ConnectionError" "ValueError" true)
           ZoneList (fresh_world host_client) "ConnectionError").
  reflexivity.
Defined.

(** ** Sequences of calls *)

(** A caller making calls one after another sends exactly one request per
    call, in call order, each on the URI built from the attributes the
    object had at the start, whichever of the calls raised. *)
Theorem call_all_sends_one_request_per_call {R : Requests}
    (ops : list operation) (w : world) :
  sent (call_all ops w) = (sent w ++ map (uri_of (wcl w)) ops)%list.
Proof.
  revert w. induction ops as [|op ops IH]; intros w.
  - simpl. now rewrite app_nil_r.
  - change (call_all (op :: ops) w) with (call_all ops (fst (call op w))).
    rewrite IH, call_spec. cbn [fst wcl sent map].
    now rewrite <- app_assoc.
Qed.

(** ** Where a URI starts and ends *)

Lemma uri_of_from_base (self : WCL) (op : operation) :
  exists tail, uri_of self op = request_uri self ++ tail.
Proof. destruct op; eexists; reflexivity. Qed.

Lemma contains_end (pre sub : string) : contains (pre ++ sub) sub = true.
Proof.
  pose proof (contains_infix pre sub "") as H.
  now rewrite append_nil_r in H.
Qed.

(** Whatever the operation and its arguments, the URI handed to
    [requests.get] starts with [request_uri] and ends with ['&api_key=']
    followed by the key, so the secret is part of every URI. *)
Theorem uri_starts_with_base_and_ends_with_key (self : WCL) (op : operation) :
  String.prefix (request_uri self) (uri_of self op) = true
  /\ endswith (uri_of self op) ("&api_key=" ++ api_key self) = true
  /\ contains (uri_of self op) (api_key self) = true.
Proof.
  split; [|split].
  - destruct (uri_of_from_base self op) as [tail ->]. apply prefix_append.
  - apply uri_of_ends_with_key.
  - destruct (params_of op) as [params|] eqn:E.
    + rewrite (uri_of_with_params self op E).
      rewrite <- !append_assoc. apply contains_end.
    + destruct op; try discriminate; cbn [uri_of];
        unfold get_zone_list_uri, get_class_list_uri;
        rewrite <- !append_assoc; apply contains_end.
Qed.

(** ** Merging mappings *)

Lemma concat_app (sep : string) (l1 l2 : list string) :
  String.concat sep (l1 ++ l2)%list
  = match l1, l2 with
    | [], _ => String.concat sep l2
    | _, [] => String.concat sep l1
    | _ :: _, _ :: _ => String.concat sep l1 ++ sep ++ String.concat sep l2
    end.
Proof.
  induction l1 as [|x l1 IH]; [reflexivity|].
  destruct l2 as [|y l2]; [now rewrite app_nil_r|].
  destruct l1 as [|x' l1]; [reflexivity|].
  change (String.concat sep ((x :: x' :: l1) ++ y :: l2)%list)
    with (x ++ sep ++ String.concat sep ((x' :: l1) ++ y :: l2)%list).
  rewrite IH.
  change (String.concat sep (x :: x' :: l1))
    with (x ++ sep ++ String.concat sep (x' :: l1)).
  now rewrite !append_assoc.
Qed.

(** The query string of two mappings put one after the other is the two
    query strings joined by one ['&']; an empty mapping on either side adds
    nothing, not even a separator. *)
Theorem format_params_app (p q : dict) :
  format_params (p ++ q)%list
  = match p, q with
    | [], _ => format_params q
    | _, [] => format_params p
    | _ :: _, _ :: _ => format_params p ++ "&" ++ format_params q
    end.
Proof.
  rewrite !format_params_join, map_app, concat_app.
  destruct p, q; reflexivity.
Qed.

(** ** Separators inside values and identifiers *)

Lemma concat_split_pair (k v k' v' : string) (tail : list string) :
  String.concat "&" ((k ++ "=" ++ v ++ "&" ++ k' ++ "=" ++ v') :: tail)
  = String.concat "&" ((k ++ "=" ++ v) :: (k' ++ "=" ++ v') :: tail).
Proof.
  destruct tail as [|x tail].
  - cbn [String.concat]. now normalize_append.
  - change (String.concat "&" ((k ++ "=" ++ v ++ "&" ++ k' ++ "=" ++ v') :: x :: tail))
      with ((k ++ "=" ++ v ++ "&" ++ k' ++ "=" ++ v') ++ "&"
              ++ String.concat "&" (x :: tail)).
    change (String.concat "&" ((k ++ "=" ++ v) :: (k' ++ "=" ++ v') :: x :: tail))
      with ((k ++ "=" ++ v) ++ "&" ++ (k' ++ "=" ++ v') ++ "&"
              ++ String.concat "&" (x :: tail)).
    now normalize_append.
Qed.

(** A value is written as it is, so a value holding ['&key=text'] yields
    the very query string of a mapping with one more entry: the query
    string does not tell the two mappings apart. *)
Theorem ampersand_in_value_adds_a_parameter (before after : dict)
    (k v k' v' : string) :
  format_params (before ++ (k, PyStr (v ++ "&" ++ k' ++ "=" ++ v')) :: after)%list
  = format_params (before ++ (k, PyStr v) :: (k', PyStr v') :: after)%list.
Proof.
  rewrite !format_params_join, !map_app. cbn [map].
  rewrite !concat_app.
  unfold key_value_pair at 2 5 7 8. cbn [fst snd str].
  rewrite concat_split_pair. now destruct before.
Qed.

(** An identifier is written as it is, so a ['/'] inside one is the same
    as the ['/'] between two: moving the text around the separator gives
    the same URI. *)
Theorem slash_in_identifier_is_a_separator (self : WCL) (a b c r : string)
    (params : dict) :
  get_report_list_events_uri self (PyStr (a ++ "/" ++ b)) (PyStr c) params
    = get_report_list_events_uri self (PyStr a) (PyStr (b ++ "/" ++ c)) params
  /\ get_report_list_tables_uri self (PyStr (a ++ "/" ++ b)) (PyStr c) params
    = get_report_list_tables_uri self (PyStr a) (PyStr (b ++ "/" ++ c)) params
  /\ get_rankings_list_character_uri self (PyStr (a ++ "/" ++ b)) (PyStr c) (PyStr r) params
    = get_rankings_list_character_uri self (PyStr a) (PyStr (b ++ "/" ++ c)) (PyStr r) params
  /\ get_parses_list_character_uri self (PyStr (a ++ "/" ++ b)) (PyStr c) (PyStr r) params
    = get_parses_list_character_uri self (PyStr a) (PyStr (b ++ "/" ++ c)) (PyStr r) params
  /\ get_reports_list_guild_uri self (PyStr (a ++ "/" ++ b)) (PyStr c) (PyStr r) params
    = get_reports_list_guild_uri self (PyStr a) (PyStr (b ++ "/" ++ c)) (PyStr r) params.
Proof.
  unfold get_report_list_events_uri, get_report_list_tables_uri,
    get_rankings_list_character_uri, get_parses_list_character_uri,
    get_reports_list_guild_uri, format_field, str.
  repeat split; now normalize_append.
Qed.

(** ** The script *)

(** Run as a script with any key and any transport, the module sends
    exactly one request, on the guild-reports URI with the guild name's
    spaces as typed and [?&api_key=] before the key; it prints the decoded
    body once, or nothing when the library raised. *)
Theorem main_sends_one_request {R : Requests} (configured_key : string) :
  let uri :=
    "https://classic.warcraftlogs.com:443/v1/reports/guild/not like this/herod/US?&api_key="
      ++ configured_key in
  fst (main configured_key) = {| wcl := WCL_class configured_key; sent := [uri] |}
  /\ snd (main configured_key)
     = match outcome_of uri with
       | inl e => inl e
       | inr test => inr [test]
       end.
Proof.
  intros uri. unfold main.
  pose proof (call_spec (ReportsGuild (PyStr "not like this") (PyStr "herod")
                (PyStr "US") default_params)
                (fresh_world (WCL_class configured_key))) as Hcall.
  cbn [call] in Hcall. rewrite Hcall.
  change (uri_of (wcl (fresh_world (WCL_class configured_key)))
            (ReportsGuild (PyStr "not like this") (PyStr "herod") (PyStr "US")
               default_params)) with uri.
  destruct (outcome_of uri); split; reflexivity.
Qed.

(** ** How many ['?'] and ['&'] a URI holds *)

Lemma no_char_spec (c : ascii) (s : string) :
  no_char c s = true <-> count_char c s = 0.
Proof. unfold no_char. apply Nat.eqb_eq. Qed.

Lemma path_of_question_marks (op : operation) :
  forallb (fun x => no_char "?" (format_field x)) (identifiers op) = true ->
  count_char "?" (path_of op) = 0.
Proof.
  destruct op; cbn [identifiers forallb path_of]; intros H;
    repeat (apply andb_prop in H; destruct H as [?H H]);
    repeat match goal with
           | Hn : no_char _ _ = true |- _ => apply no_char_spec in Hn
           end;
    rewrite ?count_char_append;
    repeat match goal with
           | Hn : count_char _ _ = 0 |- _ => rewrite Hn; clear Hn
           end;
    reflexivity.
Qed.

(** When neither the base URL, the identifiers, the query string nor the
    key holds a ['?'], the URI of a method that takes a mapping holds
    exactly one, and the URIs of [get_zone_list] and [get_class_list] hold
    none: these two have no query part at all. *)
Theorem uri_question_marks (self : WCL) (op : operation) :
  no_char "?" (request_uri self) = true ->
  no_char "?" (api_key self) = true ->
  forallb (fun x => no_char "?" (format_field x)) (identifiers op) = true ->
  match params_of op with
  | Some params => no_char "?" (format_params params)
  | None => true
  end = true ->
  count_char "?" (uri_of self op)
  = match params_of op with Some _ => 1 | None => 0 end.
Proof.
  intros Hbase Hkey Hids Hquery.
  apply no_char_spec in Hbase, Hkey.
  pose proof (path_of_question_marks op Hids) as Hpath.
  destruct (params_of op) as [params|] eqn:E.
  - apply no_char_spec in Hquery.
    rewrite (uri_of_with_params self op E), !count_char_append.
    rewrite Hbase, Hpath, Hquery, Hkey. reflexivity.
  - destruct op; try discriminate; cbn [uri_of];
      unfold get_zone_list_uri, get_class_list_uri;
      rewrite !count_char_append, Hbase, Hkey; reflexivity.
Qed.

Lemma uri_question_marks_witness :
  count_char "?"
    (uri_of host_client
       (RankingsCharacter (PyStr "Kampf") (PyStr "herod") (PyStr "US")
          [("metric", PyStr "dps")])) = 1
  /\ count_char "?" (uri_of host_client ZoneList) = 0.
Proof.
  split.
  - apply (@uri_question_marks host_client
             (RankingsCharacter (PyStr "Kampf") (PyStr "herod") (PyStr "US")
                [("metric", PyStr "dps")])); reflexivity.
  - apply (@uri_question_marks host_client ZoneList); reflexivity.
Defined.

Lemma format_params_ampersands_witness :
  count_char "&" (format_params [("metric", PyStr "dps"); ("class", PyInt 11)]) = 1.
Proof.
  apply (@format_params_ampersands [("metric", PyStr "dps"); ("class", PyInt 11)]).
  repeat constructor.
Defined.

(** ** Reading the mapping back from the query string *)

Lemma split_on_no_sep (sep : ascii) (s : string) :
  count_char sep s = 0 -> split_on sep s = [s].
Proof.
  induction s as [|c s IH]; [reflexivity|].
  cbn [count_char split_on]. destruct (Ascii.eqb c sep); [discriminate|].
  intros H. now rewrite (IH H).
Qed.

Lemma split_on_piece (sep : ascii) (x rest : string) :
  count_char sep x = 0 ->
  split_on sep (x ++ String sep rest) = x :: split_on sep rest.
Proof.
  induction x as [|c x IH]; cbn [count_char append split_on].
  - now rewrite Ascii.eqb_refl.
  - destruct (Ascii.eqb c sep); [discriminate|].
    intros H. now rewrite (IH H).
Qed.

Lemma split_on_concat (pieces : list string) :
  Forall (fun x => count_char "&" x = 0) pieces ->
  pieces <> [] ->
  split_on "&" (String.concat "&" pieces) = pieces.
Proof.
  induction pieces as [|x pieces IH]; intros H Hne; [now elim Hne|].
  inversion H as [|? ? Hx Hrest]; subst.
  destruct pieces as [|y pieces].
  - now apply split_on_no_sep.
  - change (String.concat "&" (x :: y :: pieces))
      with (x ++ String "&" (String.concat "&" (y :: pieces))).
    rewrite split_on_piece by exact Hx.
    rewrite IH; [reflexivity | exact Hrest | discriminate].
Qed.

Lemma separable_no_ampersand (item : string * pyvalue) :
  separable item = true -> count_char "&" (key_value_pair item) = 0.
Proof.
  unfold separable, key_value_pair. intros H.
  apply andb_prop in H. destruct H as [H Hv].
  apply andb_prop in H. destruct H as [Hk _].
  apply no_char_spec in Hk, Hv.
  rewrite !count_char_append, Hk, Hv. reflexivity.
Qed.

Lemma separable_pieces (params : dict) :
  forallb separable params = true ->
  Forall (fun x => count_char "&" x = 0) (map key_value_pair params).
Proof.
  induction params as [|item params IH]; cbn [forallb map]; intros H.
  - constructor.
  - apply andb_prop in H. destruct H as [Hitem Hrest].
    constructor; [now apply separable_no_ampersand | now apply IH].
Qed.

Lemma key_value_pair_not_empty (item : string * pyvalue) :
  key_value_pair item <> "".
Proof. unfold key_value_pair. now destruct (fst item). Qed.

Lemma split_on_format_params (params : dict) :
  forallb separable params = true ->
  split_on "&" (format_params params)
  = match params with
    | [] => [""]
    | _ :: _ => map key_value_pair params
    end.
Proof.
  intros H. rewrite format_params_join.
  destruct params as [|item params]; [reflexivity|].
  apply split_on_concat; [now apply separable_pieces | discriminate].
Qed.

Lemma key_value_split (k k' v v' : string) :
  count_char "=" k = 0 -> count_char "=" k' = 0 ->
  k ++ "=" ++ v = k' ++ "=" ++ v' -> k = k' /\ v = v'.
Proof.
  revert k'. induction k as [|c k IH]; intros [|c' k']; cbn [count_char append].
  - intros _ _ H. now injection H as ->.
  - destruct (Ascii.eqb_spec c' "="); [discriminate|].
    intros _ _ H. injection H as Hc _. now elim n.
  - destruct (Ascii.eqb_spec c "="); [discriminate|].
    intros _ _ H. injection H as Hc _. now elim n.
  - destruct (Ascii.eqb c "="); [discriminate|].
    destruct (Ascii.eqb c' "="); [discriminate|].
    intros Hk Hk' H. injection H as -> H.
    destruct (IH k' Hk Hk' H) as [-> ->]. now split.
Qed.

Lemma rendered_of_pairs (p q : dict) :
  forallb separable p = true -> forallb separable q = true ->
  map key_value_pair p = map key_value_pair q ->
  map rendered p = map rendered q.
Proof.
  revert q. induction p as [|item p IH]; intros [|item' q]; cbn [forallb map];
    try discriminate; [reflexivity|].
  intros Hp Hq H. injection H as Hitem Hrest.
  apply andb_prop in Hp. destruct Hp as [Hi Hp].
  apply andb_prop in Hq. destruct Hq as [Hi' Hq].
  rewrite (IH q Hp Hq Hrest). f_equal.
  unfold separable in Hi, Hi'.
  apply andb_prop in Hi. destruct Hi as [Hi _].
  apply andb_prop in Hi. destruct Hi as [_ Hi].
  apply andb_prop in Hi'. destruct Hi' as [Hi' _].
  apply andb_prop in Hi'. destruct Hi' as [_ Hi'].
  apply no_char_spec in Hi, Hi'.
  destruct (@key_value_split _ _ _ _ Hi Hi' Hitem) as [Hk Hv].
  unfold rendered. now rewrite Hk, Hv.
Qed.

(** When no key holds ['&'] or ['='] and no value renders with ['&'], the
    query string determines the mapping's keys and the texts of its
    values, in order: two such mappings with the same query string have
    the same entries as [__format_params] writes them. *)
Theorem format_params_determines_entries (p q : dict) :
  forallb separable p = true ->
  forallb separable q = true ->
  format_params p = format_params q ->
  map rendered p = map rendered q.
Proof.
  intros Hp Hq H.
  apply rendered_of_pairs; [exact Hp | exact Hq |].
  pose proof (split_on_format_params p Hp) as Sp.
  pose proof (split_on_format_params q Hq) as Sq.
  rewrite H in Sp. rewrite Sp in Sq. clear Sp H.
  destruct p as [|i p], q as [|j q]; try exact Sq; try reflexivity.
  - cbn [map] in Sq. injection Sq as Hj _.
    now elim (key_value_pair_not_empty j).
  - cbn [map] in Sq. injection Sq as Hi _.
    now elim (key_value_pair_not_empty i).
Qed.

Lemma format_params_determines_entries_witness :
  map rendered [("metric", PyStr "dps"); ("class", PyInt 11)]
  = map rendered [("metric", PyStr "dps"); ("class", PyStr "11")].
Proof.
  apply (@format_params_determines_entries
           [("metric", PyStr "dps"); ("class", PyInt 11)]
           [("metric", PyStr "dps"); ("class", PyStr "11")]);
    reflexivity.
Defined.
